(** * django-flatblocks: the [freetext] template tag, its parser and its
      cached render, and the flatblock lifecycle hooks

    The development embeds [free_text/templatetags/freetext.py] shallowly:
    Python values that the tag touches are an inductive type, exceptions
    are a result type, and the cache and the model store are finite maps
    threaded through a small state-and-exception monad that also records
    every cache and store call in a log. *)

From Stdlib Require Import ZArith Lia Bool Ascii String.
From stdpp Require Import base option list gmap strings.

Open Scope Z_scope.

(** ** Python values, exceptions, results *)

(** The values a template context can hold, as far as the tag looks at
    them: [None], integers, strings, and opaque objects (a request). *)
Inductive pyval : Type :=
  | PyNone
  | PyInt (z : Z)
  | PyStr (s : string)
  | PyObj (ident : nat).

(** The exceptions that the modelled code raises or meets.
    [TemplateSyntaxError] carries the tag name that its message quotes. *)
Inductive exn : Type :=
  | TemplateSyntaxError (tag_name : string)
  | IndexError
  | UnboundLocalError
  | ValueError
  | TypeError
  | VariableDoesNotExist
  | DoesNotExist
  | IntegrityError
  | TemplateDoesNotExist.

Inductive res (A : Type) : Type :=
  | Ok (a : A)
  | Raise (e : exn).
Arguments Ok {A} a.
Arguments Raise {A} e.

Definition is_DoesNotExist (e : exn) : bool :=
  match e with DoesNotExist => true | _ => false end.

(** ** Python string operations used by the parser *)

Definition dquote : ascii := ascii_of_nat 34.
Definition squote : ascii := ascii_of_nat 39.

(** [s[0]]: raises [IndexError] on the empty string. *)
Definition str_first (s : string) : res ascii :=
  match s with
  | EmptyString => Raise IndexError
  | String c _ => Ok c
  end.

(** [s[-1]]: raises [IndexError] on the empty string. *)
Fixpoint str_last (s : string) : res ascii :=
  match s with
  | EmptyString => Raise IndexError
  | String c EmptyString => Ok c
  | String _ s' => str_last s'
  end.

(** [s[:-1]]: all but the last character; empty on the empty string. *)
Fixpoint str_init (s : string) : string :=
  match s with
  | EmptyString => EmptyString
  | String _ EmptyString => EmptyString
  | String c s' => String c (str_init s')
  end.

(** [s[1:-1]]: a slice never raises; it is empty when [len(s) <= 2]. *)
Definition str_slice_1_m1 (s : string) : string :=
  match s with
  | EmptyString => EmptyString
  | String _ s' => str_init s'
  end.

(** Membership of [c] in the pair of the double and the single quote. *)
Definition is_quote (c : ascii) : bool :=
  bool_decide (c = dquote) || bool_decide (c = squote).

Definition is_digit (c : ascii) : bool :=
  (48 <=? nat_of_ascii c)%nat && (nat_of_ascii c <=? 57)%nat.

Fixpoint digits_value (acc : Z) (s : string) : res Z :=
  match s with
  | EmptyString => Ok acc
  | String c s' =>
      if is_digit c
      then digits_value (10 * acc + (Z.of_nat (nat_of_ascii c) - 48)) s'
      else Raise ValueError
  end.

(** [int(s)] for a string [s]: an optional sign and at least one decimal
    digit, anything else is a [ValueError].  Tokens of a tag hold white
    space only between quotes, where the leading quote already makes
    [int] fail, so stripping of white space is not modelled. *)
Definition int_of_str (s : string) : res Z :=
  match s with
  | EmptyString => Raise ValueError
  | String c s' =>
      if bool_decide (c = "-"%char) then
        match s' with
        | EmptyString => Raise ValueError
        | _ => match digits_value 0 s' with
               | Ok z => Ok (- z)
               | Raise e => Raise e
               end
        end
      else if bool_decide (c = "+"%char) then
        match s' with
        | EmptyString => Raise ValueError
        | _ => digits_value 0 s'
        end
      else digits_value 0 s
  end.

(** The builtin [int(x)] on the values that reach it here. *)
Definition py_int (v : pyval) : res Z :=
  match v with
  | PyInt z => Ok z
  | PyStr s => int_of_str s
  | PyNone | PyObj _ => Raise TypeError
  end.

(** ** The tag parser: [BasicFreeTextWrapper.prepare] and the two entry
       points *)

(** What [prepare] leaves in the wrapper's attributes. *)
Record Prepared : Type := mkPrepared {
  p_is_variable : bool;
  p_slug : string;
  p_cache_time : pyval
}.

(** The node built by the wrapper's [__call__]. *)
Record FreeTextNode : Type := mkFreeTextNode {
  slug : string;
  is_variable : bool;
  cache_time : pyval;
  with_template : bool
}.

(** [tokens] is the result of [token.split_contents()].  The length test
    comes first; its message formats [tokens[0]].  The two unpacking
    branches bind [slug] and the cache time; the quote test decides between
    a variable name and a literal. *)
Definition prepare (tokens : list string) : res Prepared :=
  let n := length tokens in
  if (n <? 2)%nat || (3 <? n)%nat then
    match tokens with
    | [] => Raise IndexError
    | t0 :: _ => Raise (TemplateSyntaxError t0)
    end
  else
    let bound :=
      match tokens with
      | [_; s] => Ok (s, PyInt 0)
      | [_; s; c] => Ok (s, PyStr c)
      | _ => Raise UnboundLocalError
      end in
    match bound with
    | Raise e => Raise e
    | Ok (s, ct) =>
        match str_first s with
        | Raise e => Raise e
        | Ok c0 =>
            match str_last s with
            | Raise e => Raise e
            | Ok c1 =>
                if negb (bool_decide (c0 = c1) && is_quote c0)
                then Ok (mkPrepared true s ct)
                else Ok (mkPrepared false (str_slice_1_m1 s) ct)
            end
        end
    end.

Definition node_of (p : Prepared) (wt : bool) : FreeTextNode :=
  mkFreeTextNode (p_slug p) (p_is_variable p) (p_cache_time p) wt.

(** [BasicFreeTextWrapper.__call__] *)
Definition do_get_freetext (tokens : list string) : res FreeTextNode :=
  match prepare tokens with
  | Ok p => Ok (node_of p true)
  | Raise e => Raise e
  end.

(** [PlainFreeTextWrapper.__call__] *)
Definition do_plain_freetext (tokens : list string) : res FreeTextNode :=
  match prepare tokens with
  | Ok p => Ok (node_of p false)
  | Raise e => Raise e
  end.

(** Concrete tokens for examples: a word between double or single quotes. *)
Definition dq (s : string) : string := String dquote (s +:+ String dquote EmptyString).
Definition sq (s : string) : string := String squote (s +:+ String squote EmptyString).

(** ** The world: cache, model store, and the log of calls *)

(** A content record.  The freetext kind has no header; its [header] is
    never read by the freetext tag. *)
Record ContentBlock : Type := mkContentBlock {
  cb_slug : string;
  header : string;
  content : string
}.

(** One entry per call on the cache or on the model manager, in call
    order. *)
Inductive event : Type :=
  | CacheGet (key : string)
  | CacheSet (key : string) (value : ContentBlock) (timeout : Z)
  | CacheDelete (key : string)
  | DbGet (s : string)
  | DbWrite (b : ContentBlock)
  | DbDelete (s : string).

(** The cache is a key-value store holding whole records; the store holds
    at most one record per slug.  Expiry by time is not part of a single
    call and is treated apart (see [expired]). *)
Record World : Type := mkWorld {
  cache : gmap string ContentBlock;
  db : gmap string ContentBlock;
  log : list event
}.

Definition M (A : Type) : Type := World → res A * World.

Definition ret {A} (a : A) : M A := λ w, (Ok a, w).

Definition bind {A B} (m : M A) (k : A → M B) : M B :=
  λ w, match m w with
       | (Ok a, w') => k a w'
       | (Raise e, w') => (Raise e, w')
       end.

Definition raise {A} (e : exn) : M A := λ w, (Raise e, w).

Definition lift {A} (r : res A) : M A := λ w, (r, w).

(** [try: body except E: handler], for the exceptions [E] picked by
    [handles]; effects of [body] before the exception stay. *)
Definition try_except {A} (body : M A) (handles : exn → bool) (handler : M A) : M A :=
  λ w, match body w with
       | (Raise e, w') => if handles e then handler w' else (Raise e, w')
       | r => r
       end.

Declare Scope py_scope.
Delimit Scope py_scope with py.
Notation "'do' x <- m ; k" := (bind m (λ x, k))
  (at level 10, x name, m at level 100, k at level 200) : py_scope.
Notation "m ;; k" := (bind m (λ _, k))
  (at level 100, k at level 200, right associativity) : py_scope.

Definition emit (e : event) (w : World) : World :=
  mkWorld (cache w) (db w) (log w ++ [e]).

(** [cache.get(key)]: [None] on a miss. *)
Definition cache_get (key : string) : M (option ContentBlock) :=
  λ w, (Ok (cache w !! key), emit (CacheGet key) w).

(** [cache.set(key, value, timeout)]: the map takes the value put under
    the key and the log keeps the timeout of the call.  For how long the
    backend then serves the entry, and what it does with a timeout of zero
    or less, is the backend's matter and no part of the call (see
    [expired]). *)
Definition cache_set (key : string) (value : ContentBlock) (timeout : Z) : M unit :=
  λ w, (Ok tt, mkWorld (<[key := value]> (cache w)) (db w)
                       (log w ++ [CacheSet key value timeout])).

(** [cache.delete(key)] *)
Definition cache_delete (key : string) : M unit :=
  λ w, (Ok tt, mkWorld (delete key (cache w)) (db w) (log w ++ [CacheDelete key])).

(** [Model.objects.get(slug=s)]: [DoesNotExist] when no record has the
    slug. *)
Definition objects_get (s : string) : M ContentBlock :=
  λ w, match db w !! s with
       | Some b => (Ok b, emit (DbGet s) w)
       | None => (Raise DoesNotExist, emit (DbGet s) w)
       end.

(** ** [FreeTextNode.render] *)

Definition CACHE_PREFIX : string := "freetext_".

Section Render.

(** The wrapper template is a file of the installation, not of the tag:
    [tmpl_render name request c] stands for loading template [name] and
    rendering it with a context that exposes [c] as [freetext] and is
    built from [request] when the caller's context has one. *)
Variable tmpl_render : string → option pyval → ContentBlock → res string.

(** [template.Variable(name).resolve(context)] belongs to the template
    engine as well: literals, dotted paths, translations and failed
    lookups are its business.  [Variable_resolve name context] stands for
    that call, with the value it returns or the exception it raises. *)
Variable Variable_resolve : string → gmap string pyval → res pyval.

Open Scope py_scope.

(** Lines 82-85: the slug as written, or the value of the variable it
    names. *)
Definition resolve_slug (self : FreeTextNode) (context : gmap string pyval)
  : res pyval :=
  if is_variable self
  then Variable_resolve (slug self) context
  else Ok (PyStr (slug self)).

(** Lines 99-104: the wrapper template around [c], or its bare content. *)
Definition output (self : FreeTextNode) (new_ctx : option pyval) (c : ContentBlock)
  : res string :=
  if with_template self
  then tmpl_render "freetext/freetext.html" new_ctx c
  else Ok (content c).

Definition render (self : FreeTextNode) (context : gmap string pyval) : M string :=
  do real_slug <- lift (resolve_slug self context);
  let new_ctx := if with_template self then context !! "request" else None in
  try_except
    (match real_slug with
     | PyStr s =>
         let cache_key := CACHE_PREFIX +:+ s in
         do hit <- cache_get cache_key;
         do c <-
           (match hit with
            | None =>
                do c <- objects_get s;
                do timeout <- lift (py_int (cache_time self));
                cache_set cache_key c timeout ;;
                ret c
            | Some c => ret c
            end);
         lift (output self new_ctx c)
     | _ => raise TypeError
     end)
    is_DoesNotExist
    (ret "").

End Render.

(** What the [try] block of [render] makes of a result: a [DoesNotExist]
    becomes the empty string, anything else passes. *)
Definition guarded (r : res string) : res string :=
  match r with
  | Raise e => if is_DoesNotExist e then Ok "" else Raise e
  | Ok _ => r
  end.

(** The sub-context's request, as [render] picks it. *)
Definition sub_request (self : FreeTextNode) (context : gmap string pyval)
  : option pyval :=
  if with_template self then context !! "request" else None.

(** The same node in the other output mode. *)
Definition with_mode (wt : bool) (self : FreeTextNode) : FreeTextNode :=
  mkFreeTextNode (slug self) (is_variable self) (cache_time self) wt.

(** A stand-in for the engine's resolver in concrete runs, where the names
    are plain words: the name is looked up in the context, and a name that
    the context lacks raises [VariableDoesNotExist]. *)
Definition demo_resolve (name : string) (context : gmap string pyval) : res pyval :=
  match context !! name with
  | Some v => Ok v
  | None => Raise VariableDoesNotExist
  end.

(** A stand-in wrapper template for concrete runs: a [div] around the
    content. *)
Definition demo_tmpl (name : string) (request : option pyval) (c : ContentBlock)
  : res string :=
  if bool_decide (name = "freetext/freetext.html")
  then Ok ("<div>" +:+ content c +:+ "</div>")
  else Raise TemplateDoesNotExist.

Definition block : ContentBlock := mkContentBlock "block" "HEADER" "CONTENT".

Definition empty_world : World := mkWorld ∅ ∅ [].

(** Nodes as the parser builds them, for concrete runs. *)
Definition timed_node : FreeTextNode := mkFreeTextNode "block" false (PyStr "60") true.
Definition plain_node : FreeTextNode := mkFreeTextNode "block" false (PyInt 0) false.
Definition missing_node : FreeTextNode := mkFreeTextNode "nothing" false (PyInt 0) true.
Definition variable_node : FreeTextNode := mkFreeTextNode "name" true (PyInt 0) true.
Definition world_with_block : World := mkWorld ∅ {[ "block" := block ]} [].

(** The same node with another cache time, and the node of the literal
    tag for a slug with the rest kept. *)
Definition with_cache_time (ct : pyval) (self : FreeTextNode) : FreeTextNode :=
  mkFreeTextNode (slug self) (is_variable self) ct (with_template self).

Definition as_literal (s : string) (self : FreeTextNode) : FreeTextNode :=
  mkFreeTextNode s false (cache_time self) (with_template self).

(** More nodes, worlds and a second wrapper template for concrete runs:
    a cache time that is no number, a cache entry whose record the store
    has lost, a template that cannot be loaded. *)
Definition bad_time_node : FreeTextNode := mkFreeTextNode "block" false (PyStr "abc") true.
Definition stale_world : World := mkWorld {[ "freetext_block" := block ]} ∅ [].
Definition warm_world : World :=
  mkWorld {[ "freetext_block" := block ]} {[ "block" := block ]} [].
Definition no_tmpl (name : string) (request : option pyval) (c : ContentBlock)
  : res string := Raise TemplateDoesNotExist.

(** ** Database writes *)

(** Writing the row of [b], keyed by its slug. *)
Definition db_write (b : ContentBlock) : M unit :=
  λ w, (Ok tt, mkWorld (cache w) (<[cb_slug b := b]> (db w)) (log w ++ [DbWrite b])).

(** Removing the row with slug [s]. *)
Definition db_delete (s : string) : M unit :=
  λ w, (Ok tt, mkWorld (cache w) (delete s (db w)) (log w ++ [DbDelete s])).

(** Cache entries may lapse between two calls: [expired w w'] says that
    [w'] is [w] with some cache entries gone and nothing else changed. *)
Definition expired (w w' : World) : Prop :=
  cache w' ⊆ cache w ∧ db w' = db w.

(** Every cached record under [prefix] is the stored record of its slug. *)
Definition coherent (prefix : string) (w : World) : Prop :=
  ∀ s c, cache w !! (prefix +:+ s) = Some c → db w !! s = Some c.

(** ** The tag grammar as the specification words it (section 4.1)

    [tagname SLUG [CACHE_TIME] [evaluated] [using TEMPLATE_NAME]].  These
    definitions follow the specification's text, not the code; they say
    which token streams the text counts as valid, to compare the parser
    with. *)
Module Grammar.

Fixpoint all_chars (p : ascii → bool) (s : string) : bool :=
  match s with
  | EmptyString => true
  | String c s' => p c && all_chars p s'
  end.

(** A quoted string literal: single or double quotes, matching, around
    the text. *)
Definition quoted_literal (s : string) : bool :=
  match s with
  | String q (String c s') =>
      is_quote q
      && match str_last (String c s') with
         | Ok l => bool_decide (l = q)
         | Raise _ => false
         end
  | _ => false
  end.

(** An unquoted bare word: not empty, no quote character. *)
Definition bare_word (s : string) : bool :=
  match s with
  | EmptyString => false
  | _ => all_chars (λ c, negb (is_quote c)) s
  end.

(** A bare non-negative integer literal. *)
Definition integer_literal (s : string) : bool :=
  match s with
  | EmptyString => false
  | _ => all_chars is_digit s
  end.

Definition using_part (rest : list string) : bool :=
  match rest with
  | [] => true
  | [kw; name] => bool_decide (kw = "using") && quoted_literal name
  | _ => false
  end.

Definition evaluated_part (rest : list string) : bool :=
  match rest with
  | kw :: rest' =>
      if bool_decide (kw = "evaluated") then using_part rest' else using_part rest
  | [] => true
  end.

Definition cache_time_part (rest : list string) : bool :=
  match rest with
  | c :: rest' =>
      if integer_literal c then evaluated_part rest' else evaluated_part rest
  | [] => true
  end.

Definition valid (tokens : list string) : bool :=
  match tokens with
  | _ :: s :: rest => (quoted_literal s || bare_word s) && cache_time_part rest
  | _ => false
  end.

End Grammar.

(** The two well-formed shapes of a SLUG token and what each encodes:
    [slug_token tok is_var name] reads "token [tok] stands for the slug
    [name], by variable when [is_var]". *)
Inductive slug_token : string → bool → string → Prop :=
  | slug_quoted (q : ascii) (body : string) :
      is_quote q = true →
      slug_token (String q (body +:+ String q EmptyString)) false body
  | slug_bare (s : string) :
      Grammar.bare_word s = true →
      slug_token s true s.

(** The cache time left by the parser for the tokens after SLUG. *)
Definition timeout_of (rest : list string) : pyval :=
  match rest with
  | [] => PyInt 0
  | c :: _ => PyStr c
  end.

(** ** Flatblocks: lifecycle hooks and the auto-creating render

    [flatblocks/models.py] and [flatblocks/templatetags/flatblock_tags.py]
    are not among the sources; only their tests are.  What follows is
    written from the specification, sections 3, 4.2 and 4.3. *)
Module FlatBlocks.

(** Modelled from the spec: the parsed arguments of a flatblock tag
    (section 3, ParsedTagArguments); the parser that builds them is in
    the missing [flatblock_tags.py]. *)
Inductive SlugSource : Type :=
  | Literal (s : string)
  | VariableRef (name : string).

Record ParsedTagArguments : Type := mkArgs {
  slugSource : SlugSource;
  cacheTimeSeconds : nat;
  evaluated : bool;
  templateOverride : option string
}.

Inductive Mode : Type := Wrapped | Plain.

Section Model.

(** Process-wide configuration of the missing [settings] module. *)
Variable CACHE_PREFIX : string.
Variable AUTOCREATE_STATIC_BLOCKS : bool.
Variable DEFAULT_TEMPLATE : string.

(** The host engine: finding a sub-template by name, and compiling and
    rendering a text against a context. *)
Variable find_template : string → option (option pyval → ContentBlock → res string).
Variable evaluate : string → gmap string pyval → res string.

Open Scope py_scope.

(** Modelled from the spec: [FlatBlock.save] of the missing
    [flatblocks/models.py] (section 4.3).  Contradictory hints are
    rejected before anything is written: both hints at once, or a
    forced update of a slug without a row, is a [ValueError]; a forced
    insert of a slug that has a row is the store's uniqueness error.  A
    successful save writes the row and deletes the cache entry of the
    slug, without writing a new one. *)
Definition save (b : ContentBlock) (force_insert force_update : bool) : M unit :=
  λ w,
    if force_insert && force_update then (Raise ValueError, w)
    else
      match db w !! cb_slug b with
      | None =>
          if force_update then (Raise ValueError, w)
          else (db_write b ;; cache_delete (CACHE_PREFIX +:+ cb_slug b)) w
      | Some _ =>
          if force_insert then (Raise IntegrityError, w)
          else (db_write b ;; cache_delete (CACHE_PREFIX +:+ cb_slug b)) w
      end.

(** Modelled from the spec: [FlatBlock.delete] of the missing
    [flatblocks/models.py] (section 4.3): the row goes, and the cache
    entry of the slug is deleted unconditionally. *)
Definition delete (b : ContentBlock) : M unit :=
  db_delete (cb_slug b) ;; cache_delete (CACHE_PREFIX +:+ cb_slug b).

(** Modelled from the spec: step 1 of the render algorithm of the
    missing [flatblock_tags.py] (section 4.2).  [None] stands for
    "render nothing": the variable is absent or resolves to empty.
    The text does not say what a value that is neither empty nor a
    string does; the model raises [TypeError] there, as the freetext
    tag does. *)
Definition resolve (args : ParsedTagArguments) (context : gmap string pyval)
  : res (option string) :=
  match slugSource args with
  | Literal s => Ok (Some s)
  | VariableRef name =>
      match context !! name with
      | None | Some PyNone | Some (PyStr EmptyString) => Ok None
      | Some (PyStr s) => Ok (Some s)
      | Some _ => Raise TypeError
      end
  end.

Definition is_literal (args : ParsedTagArguments) : bool :=
  match slugSource args with Literal _ => true | VariableRef _ => false end.

(** Modelled from the spec: steps 2 to 4 of the render algorithm of
    the missing [flatblock_tags.py]: cache first, then the store; a
    found record is cached with the parsed time to live; a literal slug
    without a record is created when auto-creation is on, with an empty
    header and the slug as content, and then treated as found. *)
Definition fetch (args : ParsedTagArguments) (s : string) : M (option ContentBlock) :=
  let cache_key := CACHE_PREFIX +:+ s in
  let ttl := Z.of_nat (cacheTimeSeconds args) in
  do hit <- cache_get cache_key;
  match hit with
  | Some c => ret (Some c)
  | None =>
      try_except
        (do c <- objects_get s;
         cache_set cache_key c ttl ;;
         ret (Some c))
        is_DoesNotExist
        (if is_literal args && AUTOCREATE_STATIC_BLOCKS
         then
           let c := mkContentBlock s "" s in
           save c false false ;;
           cache_set cache_key c ttl ;;
           ret (Some c)
         else ret None)
  end.

(** Modelled from the spec: steps 5 to 7 of the render algorithm of
    the missing [flatblock_tags.py]: evaluation of header and content
    against the caller's context when asked for, then the wrapper
    sub-template (with the caller's request, if any) or, in plain mode,
    the content alone; a sub-template that is not found is a
    template-syntax error at render time. *)
Definition present (args : ParsedTagArguments) (mode : Mode)
    (context : gmap string pyval) (c : ContentBlock) : res string :=
  match mode with
  | Plain =>
      if evaluated args then evaluate (content c) context else Ok (content c)
  | Wrapped =>
      let shown :=
        if evaluated args then
          match evaluate (header c) context with
          | Raise e => Raise e
          | Ok h =>
              match evaluate (content c) context with
              | Raise e => Raise e
              | Ok t => Ok (mkContentBlock (cb_slug c) h t)
              end
          end
        else Ok c in
      match shown with
      | Raise e => Raise e
      | Ok c' =>
          let name := default DEFAULT_TEMPLATE (templateOverride args) in
          match find_template name with
          | Some tmpl => tmpl (context !! "request") c'
          | None => Raise (TemplateSyntaxError name)
          end
      end
  end.

(** Modelled from the spec: the render algorithm of the missing
    [flatblock_tags.py] (section 4.2), from the steps above. *)
Definition render (args : ParsedTagArguments) (mode : Mode)
    (context : gmap string pyval) : M string :=
  match resolve args context with
  | Raise e => raise e
  | Ok None => ret ""
  | Ok (Some s) =>
      do found <- fetch args s;
      match found with
      | None => ret ""
      | Some c => lift (present args mode context c)
      end
  end.

(** The next render of a literal tag for [s] asks the cache and then
    the store. *)
Definition refetches (s : string) (w : World) : Prop :=
  ∀ ttl ev tpl mode context,
    ∃ rest,
      log (render (mkArgs (Literal s) ttl ev tpl) mode context w).2
      = log w ++ CacheGet (CACHE_PREFIX +:+ s) :: DbGet s :: rest.

End Model.

(** A stand-in sub-template and evaluator for concrete runs. *)
Definition demo_find (name : string)
  : option (option pyval → ContentBlock → res string) :=
  if bool_decide (name = "flatblocks/flatblock.html")
  then Some (λ _ c, Ok ("<h2>" +:+ header c +:+ "</h2><div>" +:+ content c +:+ "</div>"))
  else None.

Definition demo_evaluate (text : string) (context : gmap string pyval) : res string :=
  Ok text.

Definition demo_render (autocreate : bool) :=
  render "flatblocks_" autocreate "flatblocks/flatblock.html" demo_find demo_evaluate.

Definition demo_save := save "flatblocks_".
Definition demo_delete := delete "flatblocks_".

End FlatBlocks.

Example prepare_literal :
  do_get_freetext ["freetext"; sq "contact_help"]
  = Ok (mkFreeTextNode "contact_help" false (PyInt 0) true).
Proof. reflexivity. Qed.

Example prepare_variable :
  do_get_freetext ["freetext"; "name_in_variable"]
  = Ok (mkFreeTextNode "name_in_variable" true (PyInt 0) true).
Proof. reflexivity. Qed.

Example prepare_timeout :
  do_plain_freetext ["plain_freetext"; dq "block"; "123"]
  = Ok (mkFreeTextNode "block" false (PyStr "123") false).
Proof. reflexivity. Qed.

Example prepare_lone_quote :
  do_get_freetext ["freetext"; String dquote EmptyString]
  = Ok (mkFreeTextNode "" false (PyInt 0) true).
Proof. reflexivity. Qed.

Example render_plain_block :
  render demo_tmpl demo_resolve (mkFreeTextNode "block" false (PyInt 0) false) ∅ world_with_block
  = (Ok "CONTENT",
     mkWorld {[ "freetext_block" := block ]} {[ "block" := block ]}
       [CacheGet "freetext_block"; DbGet "block"; CacheSet "freetext_block" block 0]).
Proof. vm_compute. reflexivity. Qed.

Example render_plain_twice :
  let self := mkFreeTextNode "block" false (PyInt 0) false in
  let w1 := (render demo_tmpl demo_resolve self ∅ world_with_block).2 in
  render demo_tmpl demo_resolve self ∅ w1
  = (Ok "CONTENT",
     mkWorld {[ "freetext_block" := block ]} {[ "block" := block ]}
       [CacheGet "freetext_block"; DbGet "block"; CacheSet "freetext_block" block 0;
        CacheGet "freetext_block"]).
Proof. vm_compute. reflexivity. Qed.

Example render_wrapped_block :
  (render demo_tmpl demo_resolve (mkFreeTextNode "block" false (PyStr "60") true) ∅ world_with_block).1
  = Ok "<div>CONTENT</div>".
Proof. vm_compute. reflexivity. Qed.

(** ** Facts about the parser's string operations *)

Lemma str_last_app_char (s : string) (c : ascii) :
  str_last (s +:+ String c EmptyString) = Ok c.
Proof.
  induction s as [|a s IH]; simpl; [reflexivity|].
  destruct (s +:+ String c EmptyString) eqn:E; [|exact IH].
  destruct s; discriminate.
Qed.

Lemma str_init_app_char (s : string) (c : ascii) :
  str_init (s +:+ String c EmptyString) = s.
Proof.
  induction s as [|a s IH]; simpl; [reflexivity|].
  destruct (s +:+ String c EmptyString) eqn:E.
  - destruct s; discriminate.
  - rewrite IH. reflexivity.
Qed.

Lemma str_last_nonempty (s : string) :
  s ≠ EmptyString → ∃ c, str_last s = Ok c.
Proof.
  induction s as [|a s IH]; [congruence|]. intros _.
  destruct s as [|b s]; [exists a; reflexivity|].
  destruct IH as [c Hc]; [congruence|]. exists c. exact Hc.
Qed.

Lemma digits_value_ok (s : string) :
  Grammar.all_chars is_digit s = true →
  ∀ acc : Z, (0 ≤ acc)%Z → ∃ z : Z, digits_value acc s = Ok z ∧ (0 ≤ z)%Z.
Proof.
  induction s as [|a s IH]; simpl; intros H acc Hacc.
  - exists acc. split; [reflexivity|assumption].
  - apply andb_prop in H as [Ha Hs]. rewrite Ha. apply IH; [exact Hs|].
    unfold is_digit in Ha. apply andb_prop in Ha as [Hlo _].
    apply Nat.leb_le in Hlo. lia.
Qed.

Lemma py_int_never_DoesNotExist (v : pyval) (e : exn) :
  py_int v = Raise e → is_DoesNotExist e = false.
Proof.
  assert (Hd : ∀ s acc, digits_value acc s = Raise e → is_DoesNotExist e = false).
  { induction s as [|a s IH]; simpl; intros acc; [discriminate|].
    destruct (is_digit a); [apply IH|]. intros [= <-]. reflexivity. }
  destruct v as [|z|s|n]; simpl; try (intros [= <-]; reflexivity).
  unfold int_of_str. destruct s as [|c s]; [intros [= <-]; reflexivity|].
  repeat case_bool_decide.
  - destruct s as [|c' s]; [intros [= <-]; reflexivity|].
    destruct (digits_value 0 (String c' s)) eqn:E; [discriminate|].
    intros [= ->]. eapply Hd, E.
  - destruct s; [intros [= <-]; reflexivity|]. apply Hd.
  - apply Hd.
Qed.

(** ** Facts about [render] *)

Section RenderFacts.

Variable tmpl_render : string → option pyval → ContentBlock → res string.
Variable Variable_resolve : string → gmap string pyval → res pyval.

(** [render], case by case: the resolution of the slug, hit or miss in
    the cache, found or not in the store, and the conversion of the cache
    time. *)
Lemma render_unfold (self : FreeTextNode) (context : gmap string pyval) (w : World) :
  render tmpl_render Variable_resolve self context w =
  match resolve_slug Variable_resolve self context with
  | Raise e => (Raise e, w)
  | Ok (PyStr s) =>
      let key := CACHE_PREFIX +:+ s in
      match cache w !! key with
      | Some c =>
          (guarded (output tmpl_render self (sub_request self context) c),
           mkWorld (cache w) (db w) (log w ++ [CacheGet key]))
      | None =>
          match db w !! s with
          | None =>
              (Ok "", mkWorld (cache w) (db w) (log w ++ [CacheGet key; DbGet s]))
          | Some c =>
              match py_int (cache_time self) with
              | Raise e =>
                  (Raise e, mkWorld (cache w) (db w) (log w ++ [CacheGet key; DbGet s]))
              | Ok t =>
                  (guarded (output tmpl_render self (sub_request self context) c),
                   mkWorld (<[key := c]> (cache w)) (db w)
                     (log w ++ [CacheGet key; DbGet s; CacheSet key c t]))
              end
          end
      end
  | Ok _ => (Raise TypeError, w)
  end.
Proof.
  unfold render, bind, lift, try_except, raise, ret, sub_request.
  destruct (resolve_slug Variable_resolve self context) as [[| z | s | n] | e]; try reflexivity.
  unfold cache_get, objects_get, cache_set, emit, guarded; simpl.
  destruct (cache w !! (CACHE_PREFIX +:+ s)) as [c|] eqn:Hc; simpl.
  { destruct (output tmpl_render self _ c) as [?|e]; [reflexivity|].
    destruct (is_DoesNotExist e); reflexivity. }
  destruct (db w !! s) as [c|] eqn:Hd; simpl.
  2:{ rewrite <- app_assoc. reflexivity. }
  destruct (py_int (cache_time self)) as [t|e] eqn:Ht; simpl.
  - rewrite <- !app_assoc. simpl.
    destruct (output tmpl_render self _ c) as [?|e]; [reflexivity|].
    destruct (is_DoesNotExist e); reflexivity.
  - rewrite (py_int_never_DoesNotExist _ _ Ht). rewrite <- app_assoc. reflexivity.
Qed.

(** C1: a render whose slug resolves to a string [s] first asks the
    cache for [CACHE_PREFIX +:+ s]; on a hit it shows the cached record
    and the store is not queried; on a miss it queries the store for [s]
    and, when the record is found, writes the whole record into the cache
    with the converted cache time as timeout, whatever the output step
    then returns; when it is not found nothing is written. *)
Theorem render_cache_first (self : FreeTextNode) (context : gmap string pyval)
    (w : World) (s : string) (t : Z) :
  resolve_slug Variable_resolve self context = Ok (PyStr s) →
  py_int (cache_time self) = Ok t →
  let key := CACHE_PREFIX +:+ s in
  let shown c := guarded (output tmpl_render self (sub_request self context) c) in
  let '(r, w') := render tmpl_render Variable_resolve self context w in
  db w' = db w ∧
  match cache w !! key with
  | Some c =>
      r = shown c ∧ cache w' = cache w ∧ log w' = log w ++ [CacheGet key]
  | None =>
      match db w !! s with
      | Some c =>
          r = shown c ∧ cache w' = <[key := c]> (cache w)
          ∧ log w' = log w ++ [CacheGet key; DbGet s; CacheSet key c t]
      | None =>
          r = Ok "" ∧ cache w' = cache w
          ∧ log w' = log w ++ [CacheGet key; DbGet s]
      end
  end.
Proof.
  intros Hs Ht key shown. subst key shown.
  rewrite render_unfold, Hs. cbv zeta.
  destruct (cache w !! (CACHE_PREFIX +:+ s)) as [c|]; [done|].
  destruct (db w !! s) as [c|]; [|done].
  rewrite Ht. done.
Qed.

(** C6: when the slug resolves to a string that neither the cache nor
    the store knows, render returns the empty string, raises nothing, and
    leaves cache and store as they were. *)
Theorem render_missing_is_empty (self : FreeTextNode)
    (context : gmap string pyval) (w : World) (s : string) :
  resolve_slug Variable_resolve self context = Ok (PyStr s) →
  cache w !! (CACHE_PREFIX +:+ s) = None →
  db w !! s = None →
  render tmpl_render Variable_resolve self context w
  = (Ok "", mkWorld (cache w) (db w)
              (log w ++ [CacheGet (CACHE_PREFIX ++ s); DbGet s])).
Proof.
  intros Hs Hc Hd. rewrite render_unfold, Hs. simpl. rewrite Hc, Hd. reflexivity.
Qed.

(** C10, as the code has it: on a cache miss with the record in the
    store, whenever the cache time converts, [cache.set] is called with the
    record and the converted time (zero included) right after the store
    query, and this in both output modes, which leave the same world
    behind. *)
Theorem render_miss_populates (self : FreeTextNode) (context : gmap string pyval)
    (w : World) (s : string) (c : ContentBlock) (t : Z) :
  resolve_slug Variable_resolve self context = Ok (PyStr s) →
  cache w !! (CACHE_PREFIX +:+ s) = None →
  db w !! s = Some c →
  py_int (cache_time self) = Ok t →
  ∀ wt : bool,
    let w' := (render tmpl_render Variable_resolve (with_mode wt self) context w).2 in
    log w' = log w ++ [CacheGet (CACHE_PREFIX +:+ s); DbGet s;
                       CacheSet (CACHE_PREFIX +:+ s) c t]
    ∧ db w' = db w
    ∧ w' = (render tmpl_render Variable_resolve self context w).2.
Proof.
  intros Hs Hc Hd Ht wt w'. subst w'. rewrite !render_unfold.
  change (resolve_slug Variable_resolve (with_mode wt self) context)
    with (resolve_slug Variable_resolve self context).
  rewrite Hs. simpl. rewrite Hc, Hd, Ht. simpl. done.
Qed.

(** C9: rendering a node again in the world the first render left gives
    the same result, and the first render does not change the store. *)
Theorem render_twice (self : FreeTextNode) (context : gmap string pyval) (w : World) :
  let '(r1, w1) := render tmpl_render Variable_resolve self context w in
  (render tmpl_render Variable_resolve self context w1).1 = r1 ∧ db w1 = db w.
Proof.
  rewrite (render_unfold self context w).
  destruct (resolve_slug Variable_resolve self context) as [[| z | s | n] | e] eqn:Hs;
    try (rewrite render_unfold, Hs; done).
  simpl.
  destruct (cache w !! (CACHE_PREFIX +:+ s)) as [c|] eqn:Hc.
  { rewrite render_unfold, Hs. simpl. rewrite Hc. done. }
  destruct (db w !! s) as [c|] eqn:Hd.
  2:{ rewrite render_unfold, Hs. simpl. rewrite Hc, Hd. done. }
  destruct (py_int (cache_time self)) as [t|e] eqn:Ht.
  - rewrite render_unfold, Hs. simpl. rewrite lookup_insert_eq. done.
  - rewrite render_unfold, Hs. simpl. rewrite Hc, Hd, Ht. done.
Qed.

(** The same holds when cache entries lapse between the two renders,
    provided the cache agreed with the store to begin with and the cache
    time converts. *)
Lemma render_twice_after_expiry (self : FreeTextNode)
    (context : gmap string pyval) (w w2 : World) (t : Z) :
  coherent CACHE_PREFIX w →
  py_int (cache_time self) = Ok t →
  expired (render tmpl_render Variable_resolve self context w).2 w2 →
  (render tmpl_render Variable_resolve self context w2).1 = (render tmpl_render Variable_resolve self context w).1.
Proof.
  intros Hcoh Ht [Hsub Hdb]. revert Hsub Hdb.
  rewrite (render_unfold self context w), (render_unfold self context w2).
  destruct (resolve_slug Variable_resolve self context) as [[| z | s | n] | e] eqn:Hs; try done.
  simpl. rewrite Ht.
  destruct (cache w !! (CACHE_PREFIX +:+ s)) as [c|] eqn:Hc.
  { simpl. intros Hsub Hdb. rewrite Hdb, (Hcoh _ _ Hc).
    destruct (cache w2 !! (CACHE_PREFIX +:+ s)) as [c2|] eqn:Hc2; [|done].
    rewrite (lookup_weaken _ _ _ _ Hc2 Hsub) in Hc. by injection Hc as ->. }
  destruct (db w !! s) as [c|] eqn:Hd; simpl; intros Hsub Hdb; rewrite Hdb, Hd.
  - destruct (cache w2 !! (CACHE_PREFIX +:+ s)) as [c2|] eqn:Hc2; [|done].
    pose proof (lookup_weaken _ _ _ _ Hc2 Hsub) as Hin.
    rewrite lookup_insert_eq in Hin. by injection Hin as ->.
  - by rewrite (lookup_weaken_None _ _ _ Hc Hsub).
Qed.

(** C7, as the code has it: for a tag whose slug is a variable name,
    render never changes the store.  When the engine's lookup raises, as
    it does with [VariableDoesNotExist] for a name it does not find, that
    exception leaves render and the world is untouched.  When the lookup
    yields a string, the empty one included, that neither the cache nor
    the store knows, the result is the empty string.  When it yields
    [None] or a number, render raises [TypeError] with the world
    untouched. *)
Theorem render_variable_slug (self : FreeTextNode) (context : gmap string pyval)
    (w : World) :
  is_variable self = true →
  let '(r, w') := render tmpl_render Variable_resolve self context w in
  db w' = db w ∧
  match Variable_resolve (slug self) context with
  | Raise e => r = Raise e ∧ w' = w
  | Ok (PyStr s) =>
      match cache w !! (CACHE_PREFIX +:+ s), db w !! s with
      | None, None => r = Ok EmptyString ∧ cache w' = cache w
      | _, _ => True
      end
  | Ok PyNone | Ok (PyInt _) => r = Raise TypeError ∧ w' = w
  | Ok (PyObj _) => True
  end.
Proof.
  intros Hv. rewrite render_unfold. unfold resolve_slug. rewrite Hv.
  destruct (Variable_resolve (slug self) context) as [[| z | s | n] | e]; try done.
  cbv zeta.
  destruct (cache w !! (CACHE_PREFIX +:+ s)) as [c|]; [done|].
  destruct (db w !! s) as [c|]; [|done].
  destruct (py_int (cache_time self)); done.
Qed.

End RenderFacts.

(** ** Facts about the parser *)

Lemma prepare_quoted (tag : string) (q : ascii) (body : string) (rest : list string) :
  is_quote q = true → (length rest ≤ 1)%nat →
  prepare (tag :: String q (body +:+ String q EmptyString) :: rest)
  = Ok (mkPrepared false body (timeout_of rest)).
Proof.
  intros Hq Hlen.
  assert (Hlast : str_last (String q (body +:+ String q EmptyString)) = Ok q)
    by apply (str_last_app_char (String q body) q).
  assert (Hbody : str_slice_1_m1 (String q (body +:+ String q EmptyString)) = body)
    by apply str_init_app_char.
  destruct rest as [|c [|d rest]]; [| |simpl in Hlen; lia];
    unfold prepare; cbn [length Nat.ltb Nat.leb orb str_first];
    rewrite Hlast, Hbody, bool_decide_eq_true_2, Hq by reflexivity;
    reflexivity.
Qed.

Lemma prepare_bare (tag s : string) (rest : list string) :
  Grammar.bare_word s = true → (length rest ≤ 1)%nat →
  prepare (tag :: s :: rest) = Ok (mkPrepared true s (timeout_of rest)).
Proof.
  intros Hb Hlen. destruct s as [|a s]; [discriminate|].
  pose proof Hb as [Ha _]%andb_prop.
  destruct (str_last_nonempty (String a s)) as [l Hl]; [discriminate|].
  destruct rest as [|c [|d rest]]; [| |simpl in Hlen; lia];
    unfold prepare; cbn [length Nat.ltb Nat.leb orb str_first];
    rewrite Hl; apply negb_true_iff in Ha; rewrite Ha, andb_false_r;
    reflexivity.
Qed.

(** C2, as the code has it: for [tagname SLUG [CACHE_TIME]] parsing
    succeeds at both entry points; a SLUG between matching quotes is a
    literal slug without them, a bare word is a variable name, and the
    cache time is 0 when absent and else the token as written. *)
Theorem parse_slug_and_timeout (tag tok : string) (is_var : bool) (name : string)
    (rest : list string) :
  slug_token tok is_var name →
  (length rest ≤ 1)%nat →
  do_get_freetext (tag :: tok :: rest)
  = Ok (mkFreeTextNode name is_var (timeout_of rest) true)
  ∧ do_plain_freetext (tag :: tok :: rest)
    = Ok (mkFreeTextNode name is_var (timeout_of rest) false).
Proof.
  intros Htok Hlen. unfold do_get_freetext, do_plain_freetext.
  destruct Htok as [q body Hq | s Hb].
  - rewrite (prepare_quoted tag q body rest Hq Hlen). split; reflexivity.
  - rewrite (prepare_bare tag s rest Hb Hlen). split; reflexivity.
Qed.

(** A CACHE_TIME token that is a bare non-negative integer literal
    converts, at render time, to a non-negative integer. *)
Lemma integer_literal_converts (c : string) :
  Grammar.integer_literal c = true → ∃ n : Z, py_int (PyStr c) = Ok n ∧ (0 ≤ n)%Z.
Proof.
  intros H. destruct c as [|a c]; [discriminate|].
  unfold Grammar.integer_literal in H.
  pose proof H as [Ha _]%andb_prop.
  unfold py_int, int_of_str.
  assert (a ≠ "-"%char ∧ a ≠ "+"%char) as [Hm Hp].
  { split; intros ->; discriminate. }
  rewrite !bool_decide_eq_false_2 by assumption.
  apply digits_value_ok; [exact H | lia].
Qed.

Lemma prepare_arity (tag : string) (rest : list string) :
  prepare (tag :: rest) = Raise (TemplateSyntaxError tag)
  ↔ (length (tag :: rest) < 2 ∨ 3 < length (tag :: rest))%nat.
Proof.
  destruct rest as [|s [|c [|d rest]]].
  - simpl. split; [intros _; lia | reflexivity].
  - split; [|simpl; lia]. unfold prepare. cbn [length Nat.ltb Nat.leb orb].
    destruct s as [|a s]; [discriminate|].
    destruct (str_last_nonempty (String a s)) as [l ->]; [discriminate|].
    cbn [str_first]. destruct (negb _); discriminate.
  - split; [|simpl; lia]. unfold prepare. cbn [length Nat.ltb Nat.leb orb].
    destruct s as [|a s]; [discriminate|].
    destruct (str_last_nonempty (String a s)) as [l ->]; [discriminate|].
    cbn [str_first]. destruct (negb _); discriminate.
  - simpl. split; [intros _; lia | reflexivity].
Qed.

(** C3, as the code has it: at both entry points parsing fails with a
    [TemplateSyntaxError] naming the tag exactly when the token count is
    below 2 or above 3; the quoting of SLUG and the CACHE_TIME token are
    not what the parser rejects. *)
Theorem parse_fails_iff_arity (tag : string) (rest : list string) :
  (do_get_freetext (tag :: rest) = Raise (TemplateSyntaxError tag)
   ↔ (length (tag :: rest) < 2 ∨ 3 < length (tag :: rest))%nat)
  ∧ (do_plain_freetext (tag :: rest) = Raise (TemplateSyntaxError tag)
     ↔ (length (tag :: rest) < 2 ∨ 3 < length (tag :: rest))%nat).
Proof.
  unfold do_get_freetext, do_plain_freetext.
  split; rewrite <- prepare_arity;
    destruct (prepare (tag :: rest)); split; congruence.
Qed.

(** ** Concrete runs of the parser and of [render] *)

Lemma render_cache_first_witness :
  resolve_slug demo_resolve timed_node ∅ = Ok (PyStr "block")
  ∧ py_int (cache_time timed_node) = Ok 60%Z
  ∧ let '(r, w') := render demo_tmpl demo_resolve timed_node ∅ world_with_block in
    db w' = db world_with_block
    ∧ r = Ok "<div>CONTENT</div>"
    ∧ cache w' = <["freetext_block" := block]> ∅
    ∧ log w' = [CacheGet "freetext_block"; DbGet "block";
                CacheSet "freetext_block" block 60].
Proof.
  split; [reflexivity|]. split; [reflexivity|].
  exact (render_cache_first demo_tmpl demo_resolve timed_node ∅ world_with_block "block" 60
           eq_refl eq_refl).
Defined.

Lemma render_missing_is_empty_witness :
  resolve_slug demo_resolve missing_node ∅ = Ok (PyStr "nothing")
  ∧ cache world_with_block !! (CACHE_PREFIX +:+ "nothing") = None
  ∧ db world_with_block !! "nothing" = None
  ∧ render demo_tmpl demo_resolve missing_node ∅ world_with_block
    = (Ok "", mkWorld ∅ {[ "block" := block ]}
                [CacheGet "freetext_nothing"; DbGet "nothing"]).
Proof.
  repeat (split; [reflexivity|]).
  exact (render_missing_is_empty demo_tmpl demo_resolve missing_node ∅ world_with_block "nothing"
           eq_refl eq_refl eq_refl).
Defined.

Lemma render_miss_populates_witness :
  do_plain_freetext ["plain_freetext"; dq "block"] = Ok plain_node
  ∧ resolve_slug demo_resolve plain_node ∅ = Ok (PyStr "block")
  ∧ cache world_with_block !! (CACHE_PREFIX +:+ "block") = None
  ∧ db world_with_block !! "block" = Some block
  ∧ py_int (cache_time plain_node) = Ok 0%Z
  ∧ let w' := (render demo_tmpl demo_resolve (with_mode true plain_node) ∅
                 world_with_block).2 in
    log w' = [CacheGet "freetext_block"; DbGet "block";
              CacheSet "freetext_block" block 0]
    ∧ db w' = db world_with_block
    ∧ w' = (render demo_tmpl demo_resolve plain_node ∅ world_with_block).2.
Proof.
  do 5 (split; [reflexivity|]).
  exact (render_miss_populates demo_tmpl demo_resolve plain_node ∅ world_with_block
           "block" block 0 eq_refl eq_refl eq_refl eq_refl true).
Defined.

(** C10 fails on the code: for the node of [freetext "block" abc] a render
    that misses the cache and finds the record writes nothing into the
    cache; the conversion of the cache time raises first. *)
Lemma bad_cache_time_not_cached :
  do_get_freetext ["freetext"; dq "block"; "abc"] = Ok bad_time_node
  ∧ cache world_with_block !! (CACHE_PREFIX +:+ "block") = None
  ∧ db world_with_block !! "block" = Some block
  ∧ (render demo_tmpl demo_resolve bad_time_node ∅ world_with_block).1
    = Raise ValueError
  ∧ cache (render demo_tmpl demo_resolve bad_time_node ∅ world_with_block).2
      !! (CACHE_PREFIX +:+ "block") = None
  ∧ log (render demo_tmpl demo_resolve bad_time_node ∅ world_with_block).2
    = [CacheGet "freetext_block"; DbGet "block"].
Proof. repeat split; reflexivity. Qed.

Lemma render_variable_slug_witness :
  is_variable variable_node = true
  ∧ let '(r, w') :=
      render demo_tmpl demo_resolve variable_node {[ "name" := PyStr "" ]} empty_world in
    db w' = db empty_world ∧ r = Ok "" ∧ cache w' = cache empty_world.
Proof.
  split; [reflexivity|].
  exact (render_variable_slug demo_tmpl demo_resolve variable_node
           {[ "name" := PyStr "" ]} empty_world eq_refl).
Defined.

Lemma parse_slug_and_timeout_witness :
  slug_token (dq "block") false "block"
  ∧ (length ["123"] ≤ 1)%nat
  ∧ do_get_freetext ["freetext"; dq "block"; "123"]
    = Ok (mkFreeTextNode "block" false (PyStr "123") true)
  ∧ do_plain_freetext ["freetext"; dq "block"; "123"]
    = Ok (mkFreeTextNode "block" false (PyStr "123") false).
Proof.
  assert (Htok : slug_token (dq "block") false "block")
    by exact (slug_quoted dquote "block" eq_refl).
  split; [exact Htok|]. split; [apply le_n|].
  exact (parse_slug_and_timeout "freetext" (dq "block") false "block" ["123"]
           Htok (le_n 1)).
Defined.

(** C7 fails on the code: a variable tag whose name the context lacks
    does not render the empty string; the lookup's exception leaves
    render. *)
Lemma missing_variable_raises :
  do_get_freetext ["freetext"; "name"] = Ok variable_node
  ∧ (∅ : gmap string pyval) !! "name" = None
  ∧ render demo_tmpl demo_resolve variable_node ∅ empty_world
    = (Raise VariableDoesNotExist, empty_world)
  ∧ (render demo_tmpl demo_resolve variable_node ∅ empty_world).1 ≠ Ok "".
Proof. repeat split; try reflexivity. discriminate. Qed.

(** C2 fails on the code: a token stream of the grammar with a [using]
    clause is rejected, and the keyword [evaluated] is taken for the cache
    time. *)
Lemma using_clause_rejected :
  let tokens := ["freetext"; dq "block"; "using"; dq "flatblocks/flatblock.html"] in
  Grammar.valid tokens = true
  ∧ do_get_freetext tokens = Raise (TemplateSyntaxError "freetext")
  ∧ Grammar.valid ["freetext"; dq "block"; "evaluated"] = true
  ∧ do_get_freetext ["freetext"; dq "block"; "evaluated"]
    = Ok (mkFreeTextNode "block" false (PyStr "evaluated") true).
Proof. repeat split; reflexivity. Qed.

(** C3 fails on the code: a SLUG with non-matching quotes and a CACHE_TIME
    that is no integer literal both parse; the second fails only in
    render, with a [ValueError]. *)
Lemma malformed_tokens_accepted :
  let bad_quote := String dquote "block'" in
  Grammar.valid ["freetext"; bad_quote] = false
  ∧ do_get_freetext ["freetext"; bad_quote]
    = Ok (mkFreeTextNode bad_quote true (PyInt 0) true)
  ∧ Grammar.valid ["freetext"; dq "block"; "abc"] = false
  ∧ do_get_freetext ["freetext"; dq "block"; "abc"]
    = Ok (mkFreeTextNode "block" false (PyStr "abc") true)
  ∧ render demo_tmpl demo_resolve (mkFreeTextNode "block" false (PyStr "abc") true) ∅ world_with_block
    = (Raise ValueError,
       mkWorld ∅ {[ "block" := block ]} [CacheGet "freetext_block"; DbGet "block"]).
Proof. repeat split; reflexivity. Qed.

(** ** Facts about the flatblock hooks and the auto-creating render *)
Module FlatBlocksFacts.
Import FlatBlocks.

Section Facts.

Variable CACHE_PREFIX : string.
Variable DEFAULT_TEMPLATE : string.
Variable find_template : string → option (option pyval → ContentBlock → res string).
Variable evaluate : string → gmap string pyval → res string.

Abbreviation save := (save CACHE_PREFIX).
Abbreviation delete := (delete CACHE_PREFIX).
Abbreviation fetch := (fetch CACHE_PREFIX).
Abbreviation present := (present DEFAULT_TEMPLATE find_template evaluate).
Abbreviation render autocreate :=
  (render CACHE_PREFIX autocreate DEFAULT_TEMPLATE find_template evaluate).
Abbreviation refetches autocreate :=
  (refetches CACHE_PREFIX autocreate DEFAULT_TEMPLATE find_template evaluate).

Lemma save_unfold (b : ContentBlock) (force_insert force_update : bool) (w : World) :
  save b force_insert force_update w =
  if force_insert && force_update then (Raise ValueError, w)
  else if force_update && negb (bool_decide (is_Some (db w !! cb_slug b)))
  then (Raise ValueError, w)
  else if force_insert && bool_decide (is_Some (db w !! cb_slug b))
  then (Raise IntegrityError, w)
  else (Ok tt,
        mkWorld (base.delete (CACHE_PREFIX +:+ cb_slug b) (cache w))
          (<[cb_slug b := b]> (db w))
          (log w ++ [DbWrite b; CacheDelete (CACHE_PREFIX +:+ cb_slug b)])).
Proof.
  unfold FlatBlocks.save, bind, db_write, cache_delete. simpl.
  destruct force_insert, force_update; simpl; try reflexivity;
    destruct (db w !! cb_slug b) eqn:Hd; simpl;
    rewrite ?(bool_decide_eq_true_2 (is_Some (Some _))) by eauto;
    rewrite ?(bool_decide_eq_false_2 (is_Some None)) by (apply is_Some_None);
    simpl; rewrite <- ?app_assoc; reflexivity.
Qed.

(** [fetch], case by case. *)
Lemma fetch_unfold (autocreate : bool) (args : ParsedTagArguments) (s : string)
    (w : World) :
  fetch autocreate args s w =
  let key := CACHE_PREFIX +:+ s in
  let ttl := Z.of_nat (cacheTimeSeconds args) in
  match cache w !! key with
  | Some c => (Ok (Some c), mkWorld (cache w) (db w) (log w ++ [CacheGet key]))
  | None =>
      match db w !! s with
      | Some c =>
          (Ok (Some c),
           mkWorld (<[key := c]> (cache w)) (db w)
             (log w ++ [CacheGet key; DbGet s; CacheSet key c ttl]))
      | None =>
          if is_literal args && autocreate then
            let c := mkContentBlock s "" s in
            (Ok (Some c),
             mkWorld (<[key := c]> (base.delete key (cache w))) (<[s := c]> (db w))
               (log w ++ [CacheGet key; DbGet s; DbWrite c; CacheDelete key;
                          CacheSet key c ttl]))
          else
            (Ok None, mkWorld (cache w) (db w) (log w ++ [CacheGet key; DbGet s]))
      end
  end.
Proof.
  unfold FlatBlocks.fetch, bind, try_except, cache_get, objects_get, cache_set,
    ret, emit. simpl.
  destruct (cache w !! (CACHE_PREFIX +:+ s)) as [c|] eqn:Hc; [reflexivity|].
  simpl. destruct (db w !! s) as [c|] eqn:Hd; simpl.
  { rewrite <- !app_assoc. reflexivity. }
  destruct (is_literal args && autocreate); simpl.
  - unfold FlatBlocks.save, bind, db_write, cache_delete. simpl. rewrite Hd. simpl.
    rewrite <- !app_assoc. reflexivity.
  - rewrite <- !app_assoc. reflexivity.
Qed.

(** C4: a literal tag for a slug that neither the store nor the cache
    knows: with auto-creation on, the first render adds exactly the
    record with that slug, an empty header and the slug as content, and
    shows it (in plain mode without evaluation the output is the slug
    itself); a second render adds nothing and shows the same; with
    auto-creation off the output is empty and the store is unchanged. *)
Theorem autocreate_once (autocreate : bool) (s : string) (ttl : nat) (ev : bool)
    (tpl : option string) (mode : Mode) (context : gmap string pyval) (w : World) :
  let args := mkArgs (Literal s) ttl ev tpl in
  let new := mkContentBlock s "" s in
  db w !! s = None →
  cache w !! (CACHE_PREFIX +:+ s) = None →
  let '(r1, w1) := render autocreate args mode context w in
  if autocreate then
    db w1 = <[s := new]> (db w)
    ∧ size (db w1) = S (size (db w))
    ∧ r1 = present args mode context new
    ∧ match mode, ev with Plain, false => r1 = Ok s | _, _ => True end
    ∧ let '(r2, w2) := render autocreate args mode context w1 in
      db w2 = db w1 ∧ r2 = r1
  else
    r1 = Ok "" ∧ db w1 = db w.
Proof.
  intros args new Hd Hc. unfold FlatBlocks.render at 1, bind, lift, ret.
  cbn [resolve args slugSource]. fold args. rewrite fetch_unfold. cbv zeta.
  rewrite Hc, Hd. cbn [is_literal args slugSource andb].
  destruct autocreate; [|done].
  fold new. cbn [db]. split; [reflexivity|].
  split; [by apply map_size_insert_None|].
  split; [reflexivity|].
  split; [by destruct mode, ev|].
  unfold FlatBlocks.render, bind, lift, ret.
  cbn [resolve args slugSource]. fold args. rewrite fetch_unfold. cbv zeta.
  cbn [cache db]. rewrite lookup_insert_eq. done.
Qed.

(** C5: after a successful save of [b] the cache holds nothing under
    the key of its slug and the next render asks the store, which has
    [b]; a failed save changes nothing; after a delete the cache holds
    nothing under the key, the store has no row, and the next render asks
    the store. *)
Theorem save_delete_invalidate (autocreate : bool) (b : ContentBlock)
    (force_insert force_update : bool) (w : World) :
  let key := CACHE_PREFIX +:+ cb_slug b in
  match save b force_insert force_update w with
  | (Ok _, w') =>
      cache w' !! key = None ∧ db w' !! cb_slug b = Some b
      ∧ refetches autocreate (cb_slug b) w'
  | (Raise _, w') => w' = w
  end
  ∧ let '(r, w') := delete b w in
    r = Ok tt ∧ cache w' !! key = None ∧ db w' !! cb_slug b = None
    ∧ refetches autocreate (cb_slug b) w'.
Proof.
  assert (Hre : ∀ w', cache w' !! (CACHE_PREFIX +:+ cb_slug b) = None →
                      refetches autocreate (cb_slug b) w').
  { intros w' Hc ttl ev tpl mode context.
    unfold FlatBlocks.render, bind, lift, ret. cbn [resolve slugSource].
    rewrite fetch_unfold. cbv zeta. rewrite Hc.
    destruct (db w' !! cb_slug b); [eexists; reflexivity|].
    destruct (is_literal _ && _); eexists; reflexivity. }
  intros key. subst key. split.
  - rewrite save_unfold.
    repeat (match goal with |- context [if ?c then _ else _] => destruct c end;
            [reflexivity|]).
    split; [apply lookup_delete_eq|].
    split; [apply lookup_insert_eq|].
    apply Hre. apply lookup_delete_eq.
  - unfold FlatBlocks.delete, bind, db_delete, cache_delete. simpl.
    split; [reflexivity|].
    split; [apply lookup_delete_eq|].
    split; [apply lookup_delete_eq|].
    apply Hre. apply lookup_delete_eq.
Qed.

(** C8: a save with both hints is a [ValueError]; a forced update of a
    slug without a row is a [ValueError]; a forced insert of a slug that
    has a row is the store's uniqueness error; each reaches the caller
    as the result of [save], and nothing has been written. *)
Theorem save_rejects_contradictions (b : ContentBlock) (w : World) :
  save b true true w = (Raise ValueError, w)
  ∧ match db w !! cb_slug b with
    | None => save b false true w = (Raise ValueError, w)
    | Some _ => save b true false w = (Raise IntegrityError, w)
    end.
Proof.
  split; [reflexivity|]. unfold FlatBlocks.save.
  destruct (db w !! cb_slug b); reflexivity.
Qed.

(** The auto-creating render, too, gives the same result when run again
    in the world it left, whatever it created or cached. *)
Lemma render_twice_model (autocreate : bool) (args : ParsedTagArguments) (mode : Mode)
    (context : gmap string pyval) (w : World) :
  let '(r1, w1) := render autocreate args mode context w in
  (render autocreate args mode context w1).1 = r1.
Proof.
  unfold FlatBlocks.render, bind, lift, ret, raise.
  destruct (resolve args context) as [[s|]|e]; [|done|done].
  rewrite (fetch_unfold autocreate args s w). cbv zeta.
  destruct (cache w !! (CACHE_PREFIX +:+ s)) as [c|] eqn:Hc.
  { rewrite fetch_unfold. cbv zeta. cbn [cache]. rewrite Hc. done. }
  destruct (db w !! s) as [c|] eqn:Hd.
  { rewrite fetch_unfold. cbv zeta. cbn [cache]. rewrite lookup_insert_eq. done. }
  destruct (is_literal args && autocreate) eqn:Hauto.
  - rewrite fetch_unfold. cbv zeta. cbn [cache]. rewrite lookup_insert_eq. done.
  - rewrite fetch_unfold. cbv zeta. cbn [cache db]. rewrite Hc, Hd, Hauto. done.
Qed.

End Facts.

End FlatBlocksFacts.

(** ** Concrete runs of the flatblock model *)

Lemma autocreate_once_witness :
  db empty_world !! "foo" = None
  ∧ cache empty_world !! ("flatblocks_" +:+ "foo") = None
  ∧ let args := FlatBlocks.mkArgs (FlatBlocks.Literal "foo") 0 false None in
    let new := mkContentBlock "foo" "" "foo" in
    let '(r1, w1) := FlatBlocks.demo_render true args FlatBlocks.Plain ∅ empty_world in
    db w1 = <["foo" := new]> ∅
    ∧ size (db w1) = 1%nat
    ∧ r1 = Ok "foo"
    ∧ r1 = Ok "foo"
    ∧ let '(r2, w2) := FlatBlocks.demo_render true args FlatBlocks.Plain ∅ w1 in
      db w2 = db w1 ∧ r2 = r1.
Proof.
  split; [reflexivity|]. split; [reflexivity|].
  exact (FlatBlocksFacts.autocreate_once "flatblocks_" "flatblocks/flatblock.html"
           FlatBlocks.demo_find FlatBlocks.demo_evaluate true "foo" 0 false None
           FlatBlocks.Plain ∅ empty_world eq_refl eq_refl).
Defined.

Example autocreate_wrapped :
  let args := FlatBlocks.mkArgs (FlatBlocks.Literal "foo") 0 false None in
  (FlatBlocks.demo_render true args FlatBlocks.Wrapped ∅ empty_world).1
  = Ok "<h2></h2><div>foo</div>".
Proof. vm_compute. reflexivity. Qed.

Example autocreate_disabled :
  let args := FlatBlocks.mkArgs (FlatBlocks.Literal "block") 0 false None in
  FlatBlocks.demo_render false args FlatBlocks.Wrapped ∅ empty_world
  = (Ok "", mkWorld ∅ ∅ [CacheGet "flatblocks_block"; DbGet "block"]).
Proof. vm_compute. reflexivity. Qed.

Example variable_block_not_created :
  let args := FlatBlocks.mkArgs (FlatBlocks.VariableRef "name") 0 false None in
  FlatBlocks.demo_render true args FlatBlocks.Wrapped {[ "name" := PyStr "foo" ]} empty_world
  = (Ok "", mkWorld ∅ ∅ [CacheGet "flatblocks_foo"; DbGet "foo"]).
Proof. vm_compute. reflexivity. Qed.

Example save_resets_cache :
  let args := FlatBlocks.mkArgs (FlatBlocks.Literal "block") 60 false None in
  let w0 := mkWorld ∅ {[ "block" := block ]} [] in
  let w1 := (FlatBlocks.demo_render false args FlatBlocks.Wrapped ∅ w0).2 in
  let updated := mkContentBlock "block" "UPDATED" "CONTENT" in
  let w2 := (FlatBlocks.demo_save updated false false w1).2 in
  cache w1 !! "flatblocks_block" = Some block
  ∧ cache w2 !! "flatblocks_block" = None
  ∧ (FlatBlocks.demo_render false args FlatBlocks.Wrapped ∅ w2).1
    = Ok "<h2>UPDATED</h2><div>CONTENT</div>".
Proof. vm_compute. repeat split; reflexivity. Qed.

Example save_kwargs :
  (FlatBlocks.demo_save (mkContentBlock "missing" "" "") false true world_with_block).1
  = Raise ValueError
  ∧ (FlatBlocks.demo_save block true false world_with_block).1 = Raise IntegrityError.
Proof. vm_compute. split; reflexivity. Qed.

(** ** More about the parser: which streams parse, and what a parsed slug
       says about its token *)

Lemma str_init_last (s : string) (l : ascii) :
  str_last s = Ok l → s = str_init s +:+ String l EmptyString.
Proof.
  induction s as [|a s IH]; [discriminate|].
  destruct s as [|b s].
  - simpl. intros [= ->]. reflexivity.
  - intros H.
    change (String a (String b s)
            = String a (str_init (String b s) +:+ String l EmptyString)).
    f_equal. apply IH. exact H.
Qed.

(** Parsing succeeds exactly on two or three tokens with a SLUG token that
    is not empty; nothing else about the tokens matters. *)
Theorem parse_succeeds_iff (tokens : list string) :
  (∃ node, do_get_freetext tokens = Ok node)
  ↔ ∃ tag tok rest,
      tokens = tag :: tok :: rest ∧ tok ≠ EmptyString ∧ (length rest ≤ 1)%nat.
Proof.
  unfold do_get_freetext. split.
  - intros [node H].
    destruct tokens as [|tag [|tok [|c [|d rest]]]]; try discriminate.
    + exists tag, tok, []. split; [reflexivity|]. split; [|simpl; lia].
      intros ->. discriminate.
    + exists tag, tok, [c]. split; [reflexivity|]. split; [|simpl; lia].
      intros ->. discriminate.
  - intros (tag & tok & rest & -> & Hne & Hlen).
    destruct tok as [|a t]; [congruence|].
    destruct (str_last_nonempty (String a t)) as [l Hl]; [discriminate|].
    destruct rest as [|c [|d rest]]; [| |simpl in Hlen; lia];
      unfold prepare; cbn [length Nat.ltb Nat.leb orb str_first]; rewrite Hl;
      destruct (negb _); eexists; reflexivity.
Qed.

(** What a parsed node says about its SLUG token: a variable node keeps
    the token as the name; a literal node comes from the slug between two
    equal quote characters, or from a lone quote character, which gives
    the empty slug.  The cache time is the third token, unread. *)
Theorem parse_slug_inversion (tag tok : string) (rest : list string)
    (node : FreeTextNode) :
  do_get_freetext (tag :: tok :: rest) = Ok node →
  cache_time node = timeout_of rest
  ∧ if is_variable node then slug node = tok
    else ∃ q, is_quote q = true
              ∧ (tok = String q EmptyString ∧ slug node = EmptyString
                 ∨ tok = String q (slug node +:+ String q EmptyString)).
Proof.
  unfold do_get_freetext. intros H.
  destruct tok as [|a t].
  { destruct rest as [|c [|d rest]]; discriminate. }
  destruct (str_last_nonempty (String a t)) as [l Hl]; [discriminate|].
  assert (Hp : prepare (tag :: String a t :: rest)
               = if negb (bool_decide (a = l) && is_quote a)
                 then Ok (mkPrepared true (String a t) (timeout_of rest))
                 else Ok (mkPrepared false (str_init t) (timeout_of rest))).
  { destruct rest as [|c [|d rest]];
      [| |rewrite (proj2 (prepare_arity tag _)) in H by (simpl; lia); discriminate];
      unfold prepare; cbn [length Nat.ltb Nat.leb orb str_first]; rewrite Hl;
      reflexivity. }
  rewrite Hp in H. clear Hp.
  destruct (bool_decide (a = l) && is_quote a) eqn:Hq; simpl in H;
    injection H as <-; simpl; (split; [reflexivity|]); [|reflexivity].
  apply andb_prop in Hq as [Hal Hqa]. apply bool_decide_eq_true_1 in Hal. subst l.
  exists a. split; [exact Hqa|].
  destruct t as [|b t]; [left; split; reflexivity|].
  right. f_equal. apply str_init_last. exact Hl.
Qed.

(** ** More about [render] *)

Lemma append_inj_r (p s s' : string) : p +:+ s = p +:+ s' → s = s'.
Proof.
  induction p as [|a p IH]; simpl; [done|]. intros [= H]. apply IH, H.
Qed.

Section RenderMore.

Variable tmpl_render : string → option pyval → ContentBlock → res string.
Variable Variable_resolve : string → gmap string pyval → res pyval.

(** The footprint of a render: the store is never written, no cache entry
    is removed or overwritten, and the calls made are an initial part of
    "cache get, store get, cache set" for one slug: at most one store
    query, and only after the cache was asked. *)
Theorem render_footprint (self : FreeTextNode) (context : gmap string pyval)
    (w : World) :
  let w' := (render tmpl_render Variable_resolve self context w).2 in
  db w' = db w
  ∧ cache w ⊆ cache w'
  ∧ ∃ s c t calls,
      log w' = log w ++ calls
      ∧ calls `prefix_of` [CacheGet (CACHE_PREFIX +:+ s); DbGet s;
                           CacheSet (CACHE_PREFIX +:+ s) c t].
Proof.
  cbv zeta. rewrite render_unfold.
  assert (Hnil : ∀ w0 : World, ∃ s c t calls,
            log w0 = log w0 ++ calls
            ∧ calls `prefix_of` [CacheGet (CACHE_PREFIX +:+ s); DbGet s;
                                 CacheSet (CACHE_PREFIX +:+ s) c t]).
  { intros w0. exists EmptyString, block, 0%Z, []. split; [by rewrite app_nil_r|].
    apply prefix_nil. }
  destruct (resolve_slug Variable_resolve self context) as [[| z | s | n] | e]; simpl; try done.
  destruct (cache w !! (CACHE_PREFIX +:+ s)) as [c|] eqn:Hc; simpl.
  { repeat split; try done. exists s, c, 0%Z, [CacheGet (CACHE_PREFIX +:+ s)].
    split; [done|]. by eexists. }
  destruct (db w !! s) as [c|] eqn:Hd; simpl.
  2:{ repeat split; try done.
      exists s, block, 0%Z, [CacheGet (CACHE_PREFIX +:+ s); DbGet s].
      split; [done|]. by eexists. }
  destruct (py_int (cache_time self)) as [t|e]; simpl.
  - split; [done|]. split; [by apply insert_subseteq|].
    exists s, c, t, [CacheGet (CACHE_PREFIX +:+ s); DbGet s;
                     CacheSet (CACHE_PREFIX +:+ s) c t].
    split; [done|]. done.
  - repeat split; try done.
    exists s, c, 0%Z, [CacheGet (CACHE_PREFIX +:+ s); DbGet s].
    split; [done|]. by eexists.
Qed.

(** A cache that holds only records of the store still does so after a
    render. *)
Theorem render_keeps_coherent (self : FreeTextNode) (context : gmap string pyval)
    (w : World) :
  coherent CACHE_PREFIX w →
  coherent CACHE_PREFIX (render tmpl_render Variable_resolve self context w).2.
Proof.
  intros Hcoh. rewrite render_unfold.
  destruct (resolve_slug Variable_resolve self context) as [[| z | s | n] | e]; simpl; try done.
  destruct (cache w !! (CACHE_PREFIX +:+ s)) as [c|] eqn:Hc; simpl; [done|].
  destruct (db w !! s) as [c|] eqn:Hd; simpl; [|done].
  destruct (py_int (cache_time self)) as [t|e]; simpl; [|done].
  intros s' c'. unfold coherent in *. simpl.
  destruct (decide (s' = s)) as [->|Hne].
  - rewrite lookup_insert_eq. intros [= <-]. exact Hd.
  - rewrite lookup_insert_ne; [apply Hcoh|].
    intros Heq. apply Hne. symmetry. eapply append_inj_r, Heq.
Qed.

(** Once a render has filled the cache with a positive cache time, the
    next one asks the cache only: the store is not queried again, and the
    output is the same record's.  (What a backend does with an entry set
    for zero seconds or less is its own business and is not claimed.) *)
Theorem render_warm_cache (self : FreeTextNode) (context : gmap string pyval)
    (w : World) (s : string) (c : ContentBlock) (t : Z) :
  resolve_slug Variable_resolve self context = Ok (PyStr s) →
  cache w !! (CACHE_PREFIX +:+ s) = None →
  db w !! s = Some c →
  py_int (cache_time self) = Ok t →
  (0 < t)%Z →
  let w1 := (render tmpl_render Variable_resolve self context w).2 in
  render tmpl_render Variable_resolve self context w1
  = (guarded (output tmpl_render self (sub_request self context) c),
     mkWorld (cache w1) (db w1) (log w1 ++ [CacheGet (CACHE_PREFIX +:+ s)])).
Proof.
  intros Hs Hc Hd Ht Hpos w1. subst w1.
  rewrite (render_unfold tmpl_render Variable_resolve self context w), Hs. cbv zeta.
  rewrite Hc, Hd, Ht. cbn [snd].
  rewrite render_unfold, Hs. cbv zeta. cbn [cache db log].
  rewrite lookup_insert_eq. reflexivity.
Qed.

(** A hit is served from the cache alone: the store is neither asked nor
    needed, so a record that the store has changed or lost since is still
    shown; and the cache time is not read, so one that is no number does no
    harm. *)
Theorem render_hit_ignores_store (self : FreeTextNode) (context : gmap string pyval)
    (w : World) (s : string) (c : ContentBlock) (store : gmap string ContentBlock)
    (ct : pyval) :
  resolve_slug Variable_resolve self context = Ok (PyStr s) →
  cache w !! (CACHE_PREFIX +:+ s) = Some c →
  (render tmpl_render Variable_resolve (with_cache_time ct self) context
     (mkWorld (cache w) store (log w))).1
  = (render tmpl_render Variable_resolve self context w).1
  ∧ (render tmpl_render Variable_resolve self context w).1
    = guarded (output tmpl_render self (sub_request self context) c).
Proof.
  intros Hs Hc. rewrite !render_unfold.
  change (resolve_slug Variable_resolve (with_cache_time ct self) context)
    with (resolve_slug Variable_resolve self context).
  rewrite Hs. cbv zeta. cbn [cache]. rewrite Hc. split; reflexivity.
Qed.

(** A cache time that [int] rejects shows only when the cache is to be
    filled: on a miss with the record in the store the conversion's error
    leaves render, after the store was asked and with nothing cached. *)
Theorem render_bad_timeout (self : FreeTextNode) (context : gmap string pyval)
    (w : World) (s : string) (c : ContentBlock) (e : exn) :
  resolve_slug Variable_resolve self context = Ok (PyStr s) →
  cache w !! (CACHE_PREFIX +:+ s) = None →
  db w !! s = Some c →
  py_int (cache_time self) = Raise e →
  render tmpl_render Variable_resolve self context w
  = (Raise e, mkWorld (cache w) (db w)
                (log w ++ [CacheGet (CACHE_PREFIX +:+ s); DbGet s])).
Proof.
  intros Hs Hc Hd Ht. rewrite render_unfold, Hs. cbv zeta.
  rewrite Hc, Hd, Ht. reflexivity.
Qed.

(** A tag whose slug is a variable that the engine resolves to a string
    renders as the literal tag for that string does. *)
Theorem render_variable_as_literal (self : FreeTextNode)
    (context : gmap string pyval) (w : World) (s : string) :
  is_variable self = true →
  Variable_resolve (slug self) context = Ok (PyStr s) →
  render tmpl_render Variable_resolve self context w
  = render tmpl_render Variable_resolve (as_literal s self) context w.
Proof.
  intros Hv Hres. rewrite !render_unfold.
  unfold resolve_slug. rewrite Hv, Hres. reflexivity.
Qed.

(** A slug that is not a string is not rendered as empty: when the
    variable resolves to [None] or to a number, adding it to the cache
    prefix fails, and render raises [TypeError] before the cache or the
    store is touched. *)
Theorem render_non_string_slug (self : FreeTextNode) (context : gmap string pyval)
    (w : World) (v : pyval) :
  resolve_slug Variable_resolve self context = Ok v →
  v = PyNone ∨ (∃ z, v = PyInt z) →
  is_variable self = true
  ∧ render tmpl_render Variable_resolve self context w = (Raise TypeError, w).
Proof.
  intros Hres Hv. split.
  - unfold resolve_slug in Hres. destruct (is_variable self); [reflexivity|].
    injection Hres as <-. destruct Hv as [Hv | [z Hv]]; discriminate.
  - rewrite render_unfold, Hres. destruct Hv as [-> | [z ->]]; reflexivity.
Qed.

(** The wrapper template sees of the caller's context the request only:
    for a literal tag two contexts with the same request render alike, and
    in plain mode the context does not matter at all. *)
Theorem render_context_frame (self : FreeTextNode)
    (context1 context2 : gmap string pyval) (w : World) :
  is_variable self = false →
  (with_template self = true → context1 !! "request" = context2 !! "request") →
  render tmpl_render Variable_resolve self context1 w = render tmpl_render Variable_resolve self context2 w.
Proof.
  intros Hv Hreq. rewrite !render_unfold. unfold resolve_slug, sub_request.
  rewrite Hv. destruct (with_template self); [rewrite Hreq by reflexivity|]; reflexivity.
Qed.

(** From tokens to output: the plain tag with a quoted slug, for a record
    that is in the store and not in the cache, renders exactly the record's
    content and caches the record with timeout 0. *)
Theorem plain_tag_shows_content (tag : string) (q : ascii) (body : string)
    (context : gmap string pyval) (w : World) (c : ContentBlock) :
  is_quote q = true →
  cache w !! (CACHE_PREFIX +:+ body) = None →
  db w !! body = Some c →
  ∃ node,
    do_plain_freetext [tag; String q (body +:+ String q EmptyString)] = Ok node
    ∧ render tmpl_render Variable_resolve node context w
      = (Ok (content c),
         mkWorld (<[CACHE_PREFIX +:+ body := c]> (cache w)) (db w)
           (log w ++ [CacheGet (CACHE_PREFIX +:+ body); DbGet body;
                      CacheSet (CACHE_PREFIX +:+ body) c 0])).
Proof.
  intros Hq Hc Hd. exists (mkFreeTextNode body false (PyInt 0) false). split.
  - unfold do_plain_freetext.
    rewrite (prepare_quoted tag q body [] Hq) by (simpl; lia). reflexivity.
  - rewrite render_unfold. simpl. rewrite Hc, Hd. reflexivity.
Qed.

End RenderMore.

(** Plain mode never loads the wrapper template: its render is the same
    under any two template loaders, one that always fails included. *)
Theorem render_plain_needs_no_template
    (tmpl1 tmpl2 : string → option pyval → ContentBlock → res string)
    (Variable_resolve : string → gmap string pyval → res pyval)
    (self : FreeTextNode) (context : gmap string pyval) (w : World) :
  with_template self = false →
  render tmpl1 Variable_resolve self context w
  = render tmpl2 Variable_resolve self context w.
Proof.
  intros Hwt. rewrite !render_unfold. unfold output, sub_request. rewrite Hwt.
  reflexivity.
Qed.

(** ** Concrete runs for the further facts *)

Lemma world_with_block_coherent : coherent CACHE_PREFIX world_with_block.
Proof. intros s c H. simpl in H. rewrite lookup_empty in H. discriminate. Defined.

Lemma parse_slug_inversion_witness :
  let node := mkFreeTextNode "contact_help" false (PyInt 0) true in
  do_get_freetext ["freetext"; sq "contact_help"] = Ok node
  ∧ cache_time node = timeout_of []
  ∧ ∃ q, is_quote q = true
         ∧ (sq "contact_help" = String q EmptyString ∧ slug node = EmptyString
            ∨ sq "contact_help" = String q (slug node +:+ String q EmptyString)).
Proof.
  intros node. split; [reflexivity|].
  exact (parse_slug_inversion "freetext" (sq "contact_help") [] node eq_refl).
Defined.

Lemma render_keeps_coherent_witness :
  coherent CACHE_PREFIX world_with_block
  ∧ coherent CACHE_PREFIX (render demo_tmpl demo_resolve timed_node ∅ world_with_block).2.
Proof.
  split; [exact world_with_block_coherent|].
  exact (render_keeps_coherent demo_tmpl demo_resolve timed_node ∅ world_with_block
           world_with_block_coherent).
Defined.

Lemma render_warm_cache_witness :
  resolve_slug demo_resolve timed_node ∅ = Ok (PyStr "block")
  ∧ cache world_with_block !! (CACHE_PREFIX +:+ "block") = None
  ∧ db world_with_block !! "block" = Some block
  ∧ py_int (cache_time timed_node) = Ok 60%Z
  ∧ (0 < 60)%Z
  ∧ let w1 := (render demo_tmpl demo_resolve timed_node ∅ world_with_block).2 in
    render demo_tmpl demo_resolve timed_node ∅ w1
    = (Ok "<div>CONTENT</div>",
       mkWorld (cache w1) (db w1) (log w1 ++ [CacheGet "freetext_block"])).
Proof.
  repeat (split; [reflexivity|]).
  exact (render_warm_cache demo_tmpl demo_resolve timed_node ∅ world_with_block "block" block 60
           eq_refl eq_refl eq_refl eq_refl eq_refl).
Defined.

Lemma render_hit_ignores_store_witness :
  resolve_slug demo_resolve timed_node ∅ = Ok (PyStr "block")
  ∧ cache stale_world !! (CACHE_PREFIX +:+ "block") = Some block
  ∧ (render demo_tmpl demo_resolve (with_cache_time (PyStr "abc") timed_node) ∅
       (mkWorld (cache stale_world)
          {[ "block" := mkContentBlock "block" "" "NEW" ]} (log stale_world))).1
    = (render demo_tmpl demo_resolve timed_node ∅ stale_world).1
  ∧ (render demo_tmpl demo_resolve timed_node ∅ stale_world).1 = Ok "<div>CONTENT</div>".
Proof.
  split; [reflexivity|]. split; [reflexivity|].
  exact (render_hit_ignores_store demo_tmpl demo_resolve timed_node ∅ stale_world "block" block
           {[ "block" := mkContentBlock "block" "" "NEW" ]} (PyStr "abc")
           eq_refl eq_refl).
Defined.

Lemma render_bad_timeout_witness :
  resolve_slug demo_resolve bad_time_node ∅ = Ok (PyStr "block")
  ∧ cache world_with_block !! (CACHE_PREFIX +:+ "block") = None
  ∧ db world_with_block !! "block" = Some block
  ∧ py_int (cache_time bad_time_node) = Raise ValueError
  ∧ render demo_tmpl demo_resolve bad_time_node ∅ world_with_block
    = (Raise ValueError,
       mkWorld ∅ {[ "block" := block ]} [CacheGet "freetext_block"; DbGet "block"]).
Proof.
  repeat (split; [reflexivity|]).
  exact (render_bad_timeout demo_tmpl demo_resolve bad_time_node ∅ world_with_block "block" block
           ValueError eq_refl eq_refl eq_refl eq_refl).
Defined.

Lemma render_variable_as_literal_witness :
  is_variable variable_node = true
  ∧ demo_resolve (slug variable_node) {[ "name" := PyStr "block" ]}
    = Ok (PyStr "block")
  ∧ render demo_tmpl demo_resolve variable_node {[ "name" := PyStr "block" ]}
      world_with_block
    = render demo_tmpl demo_resolve (as_literal "block" variable_node)
        {[ "name" := PyStr "block" ]} world_with_block.
Proof.
  do 2 (split; [reflexivity|]).
  exact (render_variable_as_literal demo_tmpl demo_resolve variable_node
           {[ "name" := PyStr "block" ]} world_with_block "block"
           eq_refl eq_refl).
Defined.

Lemma render_non_string_slug_witness :
  resolve_slug demo_resolve variable_node {[ "name" := PyNone ]} = Ok PyNone
  ∧ (PyNone = PyNone ∨ ∃ z, PyNone = PyInt z)
  ∧ is_variable variable_node = true
  ∧ render demo_tmpl demo_resolve variable_node {[ "name" := PyNone ]} world_with_block
    = (Raise TypeError, world_with_block).
Proof.
  split; [reflexivity|]. split; [left; reflexivity|].
  exact (render_non_string_slug demo_tmpl demo_resolve variable_node
           {[ "name" := PyNone ]} world_with_block PyNone eq_refl
           (or_introl eq_refl)).
Defined.

Lemma render_context_frame_witness :
  is_variable timed_node = false
  ∧ (with_template timed_node = true →
     ({[ "request" := PyObj 1 ]} : gmap string pyval) !! "request"
     = ({[ "request" := PyObj 1; "user" := PyStr "ann" ]} : gmap string pyval)
         !! "request")
  ∧ render demo_tmpl demo_resolve timed_node {[ "request" := PyObj 1 ]} world_with_block
    = render demo_tmpl demo_resolve timed_node {[ "request" := PyObj 1; "user" := PyStr "ann" ]}
        world_with_block.
Proof.
  split; [reflexivity|]. split; [intros _; reflexivity|].
  exact (render_context_frame demo_tmpl demo_resolve timed_node {[ "request" := PyObj 1 ]}
           {[ "request" := PyObj 1; "user" := PyStr "ann" ]} world_with_block
           eq_refl (λ _, eq_refl)).
Defined.

Lemma plain_tag_shows_content_witness :
  is_quote dquote = true
  ∧ cache world_with_block !! (CACHE_PREFIX +:+ "block") = None
  ∧ db world_with_block !! "block" = Some block
  ∧ ∃ node,
      do_plain_freetext ["plain_freetext"; dq "block"] = Ok node
      ∧ render demo_tmpl demo_resolve node ∅ world_with_block
        = (Ok "CONTENT",
           mkWorld (<["freetext_block" := block]> ∅) {[ "block" := block ]}
             [CacheGet "freetext_block"; DbGet "block";
              CacheSet "freetext_block" block 0]).
Proof.
  repeat (split; [reflexivity|]).
  exact (plain_tag_shows_content demo_tmpl demo_resolve "plain_freetext" dquote "block" ∅
           world_with_block block eq_refl eq_refl eq_refl).
Defined.

Lemma render_plain_needs_no_template_witness :
  with_template plain_node = false
  ∧ render demo_tmpl demo_resolve plain_node ∅ world_with_block
    = render no_tmpl demo_resolve plain_node ∅ world_with_block.
Proof.
  split; [reflexivity|].
  exact (render_plain_needs_no_template demo_tmpl no_tmpl demo_resolve plain_node ∅
           world_with_block eq_refl).
Defined.

Lemma render_twice_after_expiry_witness :
  let lapsed := mkWorld ∅ {[ "block" := block ]} [CacheGet "freetext_block"] in
  coherent CACHE_PREFIX world_with_block
  ∧ py_int (cache_time timed_node) = Ok 60%Z
  ∧ expired (render demo_tmpl demo_resolve timed_node ∅ world_with_block).2 lapsed
  ∧ (render demo_tmpl demo_resolve timed_node ∅ lapsed).1
    = (render demo_tmpl demo_resolve timed_node ∅ world_with_block).1.
Proof.
  intros lapsed.
  assert (Hexp : expired (render demo_tmpl demo_resolve timed_node ∅ world_with_block).2 lapsed).
  { split; [apply map_empty_subseteq | reflexivity]. }
  split; [exact world_with_block_coherent|]. split; [reflexivity|].
  split; [exact Hexp|].
  exact (render_twice_after_expiry demo_tmpl demo_resolve timed_node ∅ world_with_block
           lapsed 60 world_with_block_coherent eq_refl Hexp).
Defined.

(** The [try] block spans the wrapper template: when the record is at hand
    (from the cache, or from the store with a cache time that converts) and
    the template fails, a [DoesNotExist] raised inside it is swallowed into
    the empty string like a missing record, and any other failure, a
    template that cannot be loaded included, leaves render. *)
Theorem render_template_failure
    (tmpl_render : string → option pyval → ContentBlock → res string)
    (Variable_resolve : string → gmap string pyval → res pyval)
    (self : FreeTextNode) (context : gmap string pyval) (w : World)
    (s : string) (c : ContentBlock) (e : exn) :
  resolve_slug Variable_resolve self context = Ok (PyStr s) →
  cache w !! (CACHE_PREFIX +:+ s) = Some c
  ∨ (cache w !! (CACHE_PREFIX +:+ s) = None ∧ db w !! s = Some c
     ∧ ∃ t, py_int (cache_time self) = Ok t) →
  with_template self = true →
  tmpl_render "freetext/freetext.html" (context !! "request") c = Raise e →
  (render tmpl_render Variable_resolve self context w).1
  = if is_DoesNotExist e then Ok EmptyString else Raise e.
Proof.
  intros Hs Hav Hwt He. rewrite render_unfold, Hs. cbv zeta.
  assert (Hout : guarded (output tmpl_render self (sub_request self context) c)
                 = if is_DoesNotExist e then Ok EmptyString else Raise e).
  { unfold output, sub_request. rewrite Hwt, He. reflexivity. }
  destruct Hav as [Hc | (Hc & Hd & t & Ht)].
  - rewrite Hc. exact Hout.
  - rewrite Hc, Hd, Ht. exact Hout.
Qed.

Lemma render_template_failure_witness :
  resolve_slug demo_resolve timed_node ∅ = Ok (PyStr "block")
  ∧ (cache world_with_block !! (CACHE_PREFIX +:+ "block") = None
     ∧ db world_with_block !! "block" = Some block
     ∧ ∃ t, py_int (cache_time timed_node) = Ok t)
  ∧ with_template timed_node = true
  ∧ no_tmpl "freetext/freetext.html" ((∅ : gmap string pyval) !! "request") block
    = Raise TemplateDoesNotExist
  ∧ (render no_tmpl demo_resolve timed_node ∅ world_with_block).1 = Raise TemplateDoesNotExist.
Proof.
  assert (Hav : cache world_with_block !! (CACHE_PREFIX +:+ "block") = None
                ∧ db world_with_block !! "block" = Some block
                ∧ ∃ t, py_int (cache_time timed_node) = Ok t).
  { split; [reflexivity|]. split; [reflexivity|]. exists 60%Z. reflexivity. }
  split; [reflexivity|]. split; [exact Hav|]. split; [reflexivity|].
  split; [reflexivity|].
  exact (render_template_failure no_tmpl demo_resolve timed_node ∅ world_with_block "block" block
           TemplateDoesNotExist eq_refl (or_intror Hav) eq_refl eq_refl).
Defined.
